(** * BHSI traffic-light front end: risk display, conversion and summary retry

    A shallow embedding of the risk logic of the BHSI front end:

    - [TrafficLightResult.tsx.backup]: the colour tables [colorMap] and
      [riskLevelColorMap], the risk chip of the detailed results table, the
      High / Medium / Low counters, the parameter table, the "no results"
      card and the retry button of the management summary;
    - the integration test page (function [testDataConversion]): the
      conversion of a backend search response into the front-end result;
    - the parameter tables [parameterMap] and [dataSourcesMap] of the
      component, and the two tests of the page that call the backend
      ([testBackendHealth], [testStreamlinedSearch]).

    Strings are sequences of bytes (UTF-8).  Every string the code compares
    with or searches for is ASCII, so equality and prefix tests on bytes
    agree with the ones JavaScript performs on UTF-16 code units. *)

From Stdlib Require Import QArith.
From stdpp Require Import base gmap strings list pretty.

Local Open Scope nat_scope.

(** ** JavaScript values used by the component *)

Module Js.

(** The own property names of [Object.prototype] (ECMAScript, including the
    legacy accessors of Annex B).  Every object literal inherits them, so a
    property read [o[k]] finds them when [o] has no own property [k]. *)
Definition objectPrototypeKeys : list string :=
  [ "constructor"; "hasOwnProperty"; "isPrototypeOf";
    "propertyIsEnumerable"; "toLocaleString"; "toString"; "valueOf";
    "__proto__"; "__defineGetter__"; "__defineSetter__";
    "__lookupGetter__"; "__lookupSetter__" ]%string.

(** The result of the property read [o[k]] on an object literal whose own
    properties hold values of type [A]. *)
Inductive PropertyRead (A : Type) : Type :=
| Own (a : A)                (* an own property of the literal *)
| Inherited (name : string)  (* a function or object of Object.prototype *)
| Undefined.
Arguments Own {A} a.
Arguments Inherited {A} name.
Arguments Undefined {A}.

Definition get {A} (o : gmap string A) (k : string) : PropertyRead A :=
  match o !! k with
  | Some a => Own a
  | None =>
      if bool_decide (k ∈ objectPrototypeKeys) then Inherited k
      else Undefined
  end.

(** [s.startsWith(p)] *)
Fixpoint startsWith (s p : string) : bool :=
  match p with
  | EmptyString => true
  | String c p' =>
      match s with
      | EmptyString => false
      | String d s' => if Ascii.eqb c d then startsWith s' p' else false
      end
  end.

End Js.

(** ** Colours *)

(** The traffic-light colours, the string literals ["green"], ["orange"] and
    ["red"] of the code. *)
Inductive TrafficColor : Set := green | orange | red.

(** The colour names of the MUI components the code uses. *)
Inductive MuiColor : Set :=
  success | warning | error | default | primary | secondary.

#[global] Instance TrafficColor_eq_dec : EqDecision TrafficColor.
Proof. solve_decision. Defined.
#[global] Instance MuiColor_eq_dec : EqDecision MuiColor.
Proof. solve_decision. Defined.

(** [colorMap]: map colour strings to MUI colour values. *)
Definition colorMap (c : TrafficColor) : MuiColor :=
  match c with
  | green => success
  | orange => warning
  | red => error
  end.

(** [riskLevelColorMap]: map risk levels to colours. *)
Definition riskLevelColorMap : gmap string MuiColor :=
  <["Low-Other" := success]> (
  <["Low-Regulatory" := success]> (
  <["Low-Legal" := success]> (
  <["Low-Financial" := success]> (
  <["Low-Operational" := success]> (
  <["Medium-Economic" := warning]> (
  <["Medium-Tax" := warning]> (
  <["Medium-Legal" := warning]> (
  <["Medium-Financial" := warning]> (
  <["Medium-Regulatory" := warning]> (
  <["Medium-Operational" := warning]> (
  <["High-Legal" := error]> (
  <["High-Financial" := error]> (
  <["High-Regulatory" := error]> (
  <["High-Operational" := error]> (
  <["Unknown" := default]> ∅))))))))))))))).

(** The own keys of [riskLevelColorMap], as written in the source. *)
Definition riskLevelKeys : list string :=
  [ "Low-Other"; "Low-Regulatory"; "Low-Legal"; "Low-Financial";
    "Low-Operational"; "Medium-Economic"; "Medium-Tax"; "Medium-Legal";
    "Medium-Financial"; "Medium-Regulatory"; "Medium-Operational";
    "High-Legal"; "High-Financial"; "High-Regulatory"; "High-Operational";
    "Unknown" ]%string.

(** ** The risk taxonomy of the labels

    Risk-level strings have the form ["<Severity>-<Category>"]. *)

Inductive Severity : Set := Low | Medium | High | Unknown.

Inductive Category : Set :=
  Legal | Financial | Regulatory | Operational | Tax | Economic | Other.

#[global] Instance Severity_eq_dec : EqDecision Severity.
Proof. solve_decision. Defined.
#[global] Instance Category_eq_dec : EqDecision Category.
Proof. solve_decision. Defined.

Definition severityName (s : Severity) : string :=
  match s with
  | Low => "Low" | Medium => "Medium" | High => "High" | Unknown => "Unknown"
  end.

Definition categoryName (c : Category) : string :=
  match c with
  | Legal => "Legal" | Financial => "Financial" | Regulatory => "Regulatory"
  | Operational => "Operational" | Tax => "Tax" | Economic => "Economic"
  | Other => "Other"
  end.

Definition allCategories : list Category :=
  [Legal; Financial; Regulatory; Operational; Tax; Economic; Other].

Definition riskLabel (s : Severity) (c : Category) : string :=
  severityName s +:+ "-" +:+ categoryName c.

(** ** Search results *)

(** [SearchResultItem] *)
Record SearchResultItem : Type := {
  risk_level : string;
  date : string;
  title : string;
  summary : option string;
  source : string;
  confidence : Q;
  url : string
}.

(** ** The risk chip of the detailed results table *)

(** The value handed to the [color] property of the chip: a colour name, or
    a value that is not a string at all. *)
Inductive ChipColor : Type :=
| Named (c : MuiColor)
| NotAString (inherited : string).

Inductive RiskIcon : Set :=
  ErrorIcon | WarningAmberIcon | CheckCircleIcon | InfoOutlinedIcon.

(** [riskLevelColorMap[item.risk_level] || "default"].  The colours of the
    table are non-empty strings and the inherited values are functions or
    objects: all of them are truthy, only [undefined] takes the default. *)
Definition riskChipColor (risk_level : string) : ChipColor :=
  match Js.get riskLevelColorMap risk_level with
  | Js.Own c => Named c
  | Js.Inherited name => NotAString name
  | Js.Undefined => Named default
  end.

Definition riskChipIcon (risk_level : string) : RiskIcon :=
  if Js.startsWith risk_level "High" then ErrorIcon
  else if Js.startsWith risk_level "Medium" then WarningAmberIcon
  else if Js.startsWith risk_level "Low" then CheckCircleIcon
  else InfoOutlinedIcon.

Record RiskChip : Type := {
  chipLabel : string;
  chipColor : ChipColor;
  chipIcon : RiskIcon
}.

Definition riskChip (item : SearchResultItem) : RiskChip :=
  {| chipLabel := risk_level item;
     chipColor := riskChipColor (risk_level item);
     chipIcon := riskChipIcon (risk_level item) |}.

(** The categories for which the table has a High entry, and a Low entry. *)
Definition hasHighEntry (c : Category) : bool :=
  match c with
  | Legal | Financial | Regulatory | Operational => true
  | Tax | Economic | Other => false
  end.

Definition hasLowEntry (c : Category) : bool :=
  match c with
  | Legal | Financial | Regulatory | Operational | Other => true
  | Tax | Economic => false
  end.


(** ** The backend search response *)

Record DateRange : Type := {
  range_start : option string;
  range_end : option string;
  days_back : nat
}.

Record SearchMetadata : Type := {
  total_results : nat;
  boe_results : nat;
  news_results : nat;
  rss_results : nat;
  high_risk_results : nat;
  sources_searched : list string
}.

(** The response of the search endpoint.  [results] may be missing, the code
    reads it as [response.results || []]. *)
Record SearchResponse : Type := {
  company_name : string;
  search_date : string;
  date_range : DateRange;
  results : option (list SearchResultItem);
  metadata : SearchMetadata
}.

(** [x || []] on an optional array: an array, even an empty one, is truthy. *)
Definition orEmpty {A} (x : option (list A)) : list A :=
  match x with
  | Some l => l
  | None => []
  end.

(** ** The front-end result and the conversion of [testDataConversion] *)

(** [TrafficLightResponse].  [blocks] is an object read in the order of its
    keys ([Object.keys]), hence an association list. *)
Record TrafficLightResponse : Type := {
  company : string;
  vat : string;
  overall : TrafficColor;
  blocks : list (string * TrafficColor);
  searchResults : option SearchResponse
}.

Definition isHighRisk (r : SearchResultItem) : bool :=
  bool_decide (risk_level r = "High-Legal")
  || bool_decide (risk_level r = "High-Financial").

Definition isMediumRisk (r : SearchResultItem) : bool :=
  bool_decide (risk_level r = "Medium-Legal")
  || bool_decide (risk_level r = "Medium-Financial").

Definition highRiskCount (results : list SearchResultItem) : nat :=
  length (List.filter isHighRisk results).

Definition mediumRiskCount (results : list SearchResultItem) : nat :=
  length (List.filter isMediumRisk results).

(** [let overall = "green"; if (highRiskCount > 0) overall = "red";
     else if (mediumRiskCount > 0) overall = "orange";] *)
Definition overallOf (results : list SearchResultItem) : TrafficColor :=
  if 0 <? highRiskCount results then red
  else if 0 <? mediumRiskCount results then orange
  else green.

(** The conversion logic of [testDataConversion], for any search response in
    place of the mock one. *)
Definition convertedResult (mockSearchResponse : SearchResponse)
  : TrafficLightResponse :=
  let results := orEmpty (results mockSearchResponse) in
  {| company := company_name mockSearchResponse;
     vat := "N/A";
     overall := overallOf results;
     blocks := [ ("turnover", green); ("shareholding", green);
                 ("bankruptcy", green); ("legal", green) ]%string;
     searchResults := Some mockSearchResponse |}.

(** The response [testDataConversion] converts. *)
Definition mockSearchResponse : SearchResponse :=
  {| company_name := "Banco Santander";
     search_date := "2025-07-03T00:31:39Z";
     date_range :=
       {| range_start := None; range_end := None; days_back := 7 |};
     results := Some
       [ {| source := "RSS-EXPANSION";
            date := "2025-07-02T01:17:07+02:00Z";
            title := "Santander busca sinergias de más del 50% con TSB";
            risk_level := "Low-Legal";
            confidence := 82 # 100;
            url := "https://example.com/article1";
            summary := None |};
         {| source := "News";
            date := "2025-07-02T00:13:35Z";
            title := "Unlocked AI, Finvero y Tuiio Santander se alían";
            risk_level := "No-Legal";
            confidence := 8 # 10;
            url := "https://example.com/article2";
            summary := None |} ];
     metadata :=
       {| total_results := 2; boe_results := 0; news_results := 1;
          rss_results := 1; high_risk_results := 0;
          sources_searched :=
            ["boe"; "newsapi"; "elpais"; "expansion"]%string |} |}.

(** *** The test page as state

    [testDataConversion] returns nothing: it writes its outcome into the
    element [conversion-result] of the page.  The page is therefore the state
    the function is run in. *)

Inductive Html : Type :=
| Empty
| LoadingNote (text : string)
| ConversionPassed (input : SearchResponse) (output : TrafficLightResponse)
| Markup (raw : string).

Record Page : Type := {
  health_result : Html;
  search_result : Html;
  validation_result : Html;
  conversion_result : Html
}.

Definition setConversionResult (h : Html) (p : Page) : Page :=
  {| health_result := health_result p;
     search_result := search_result p;
     validation_result := validation_result p;
     conversion_result := h |}.

(** The body of [testDataConversion] for a given response: the loading note,
    the conversion, then the card showing input and output. *)
Definition runDataConversion (response : SearchResponse) (p : Page) : Page :=
  let p1 := setConversionResult (LoadingNote "Testing data conversion...") p in
  let output := convertedResult response in
  setConversionResult (ConversionPassed response output) p1.

Definition testDataConversion (p : Page) : Page :=
  runDataConversion mockSearchResponse p.

(** ** The component [TrafficLightResult] *)

(** [parameterMap]: map parameters to readable display names. *)
Definition parameterMap : gmap string string :=
  <["turnover" := "Financial Turnover"]> (
  <["shareholding" := "Shareholding Structure"]> (
  <["bankruptcy" := "Bankruptcy History"]> (
  <["legal" := "Legal Issues"]> (
  <["regulatory" := "Regulatory Compliance"]> (
  <["dismissals" := "Employee Dismissals"]> (
  <["environmental" := "Environmental Issues"]> (
  <["operational" := "Operational Changes"]> ∅)))))))%string.

(** [risk.toUpperCase()] *)
Definition toUpperCase (c : TrafficColor) : string :=
  match c with
  | green => "GREEN"
  | orange => "ORANGE"
  | red => "RED"
  end.

Definition trafficIcon (c : TrafficColor) : RiskIcon :=
  match c with
  | green => CheckCircleIcon
  | orange => WarningAmberIcon
  | red => ErrorIcon
  end.

(** A chip showing a traffic-light colour: the overall verdict and the risk
    level of a parameter row. *)
Record TrafficChip : Type := {
  trafficLabel : string;
  trafficColor : MuiColor;
  trafficIconOf : RiskIcon
}.

Definition trafficChip (c : TrafficColor) : TrafficChip :=
  {| trafficLabel := toUpperCase c;
     trafficColor := colorMap c;
     trafficIconOf := trafficIcon c |}.

(** A row of the "Detailed Parameters" table (the data-source columns are
    static text and left out). *)
Record ParameterRow : Type := {
  rowKey : string;
  rowName : Js.PropertyRead string;
  rowRisk : TrafficChip
}.

Definition parameterRow (entry : string * TrafficColor) : ParameterRow :=
  {| rowKey := entry.1;
     rowName := Js.get parameterMap entry.1;
     rowRisk := trafficChip entry.2 |}.

Definition overallMessage (c : TrafficColor) : string :=
  match c with
  | green => "Low risk profile. Recommended for renewal."
  | orange => "Medium risk profile. Review recommended."
  | red => "High risk profile. Caution advised."
  end.

(** [searchResults.filter(r => r.risk_level.startsWith(prefix)).length] *)
Definition countStartsWith (prefix : string) (l : list SearchResultItem)
  : nat :=
  length (List.filter (λ r, Js.startsWith (risk_level r) prefix) l).

(** A risk level that one of the three counters recognises. *)
Definition hasSeverityPrefix (level : string) : bool :=
  Js.startsWith level "High"
  || Js.startsWith level "Medium"
  || Js.startsWith level "Low".

(** The summary bar above the table (and the four summary papers, which
    repeat the same expressions). *)
Record SummaryBar : Type := {
  totalCount : nat;
  highCount : nat;
  mediumCount : nat;
  lowCount : nat
}.

Definition summaryBar (searchResults : list SearchResultItem) : SummaryBar :=
  {| totalCount := length searchResults;
     highCount := countStartsWith "High" searchResults;
     mediumCount := countStartsWith "Medium" searchResults;
     lowCount := countStartsWith "Low" searchResults |}.

Record ResultCard : Type := {
  cardCompany : string;
  cardVat : string;
  overallChip : TrafficChip;
  cardMessage : string;
  parameterRows : list ParameterRow;
  cardSummary : SummaryBar;
  detailedRows : list RiskChip
}.

(** What the component renders. *)
Inductive View : Type :=
| NoResults (heading hint : string)
| Results (card : ResultCard).

(** [const searchResults = result.searchResults?.results || [];] *)
Definition searchResultsOf (result : TrafficLightResponse)
  : list SearchResultItem :=
  match searchResults result with
  | Some response => orEmpty (results response)
  | None => []
  end.

Definition hasSearchResults (result : TrafficLightResponse) : bool :=
  0 <? length (searchResultsOf result).

Definition TrafficLightResult (result : TrafficLightResponse) : View :=
  if negb (hasSearchResults result) then
    NoResults "No results found for this company."
              "Try another search or check your spelling."
  else
    Results
      {| cardCompany := company result;
         cardVat := vat result;
         overallChip := trafficChip (overall result);
         cardMessage := overallMessage (overall result);
         parameterRows := parameterRow <$> blocks result;
         cardSummary := summaryBar (searchResultsOf result);
         detailedRows := riskChip <$> searchResultsOf result |}.

(** ** The management summary and its retry button *)

Module SummaryRetry.

(** The state the summary controls read: [retryCount] and [showSummary]
    are component state, the other three come from the mutation hook
    [useGetManagementSummaryMutation] ([isLoading], [error], [data]). *)
Record Ui : Type := {
  retryCount : nat;
  showSummary : bool;
  summaryLoading : bool;
  summaryError : bool;
  summary : bool
}.

Definition initial : Ui :=
  {| retryCount := 0; showSummary := false; summaryLoading := false;
     summaryError := false; summary := false |}.

Inductive Caller : Set := GetSummaryButton | RetryButton.

#[global] Instance Caller_eq_dec : EqDecision Caller.
Proof. solve_decision. Defined.

(** One invocation of [getManagementSummary], the request to the summary
    model, with its arguments. *)
Record SummaryCall : Type := {
  caller : Caller;
  call_company_name : string;
  classification_results : list SearchResultItem
}.

(** What can happen to the mounted component.  The hook is code outside the
    component: its three flags may change in any way ([HookState]); the
    promise awaited by a click handler settles with [Settled]. *)
Inductive Event : Set :=
| ClickGetSummary
| ClickRetry
| HookState (loading error data : bool)
| Settled (resolved : bool).

Section Mounted.

Variable result : TrafficLightResponse.

Definition request (who : Caller) : SummaryCall :=
  {| caller := who;
     call_company_name := company result;
     classification_results := searchResultsOf result |}.

(** The summary button is rendered with the results and
    [disabled={summaryLoading || !searchResults.length}]. *)
Definition getSummaryEnabled (s : Ui) : bool :=
  hasSearchResults result
  && negb (summaryLoading s
           || bool_decide (length (searchResultsOf result) = 0)).

(** The retry button is rendered under [summaryError]. *)
Definition retryRendered (s : Ui) : bool :=
  hasSearchResults result && summaryError s.

(** [disabled={retryCount >= 3}] *)
Definition retryDisabled (s : Ui) : bool := 3 <=? retryCount s.

(** [{retryCount >= 3 ? "Max retries reached" : "Retry"}] *)
Definition retryLabel (s : Ui) : string :=
  if 3 <=? retryCount s then "Max retries reached" else "Retry".

Definition setRetryCount (f : nat → nat) (s : Ui) : Ui :=
  {| retryCount := f (retryCount s); showSummary := showSummary s;
     summaryLoading := summaryLoading s; summaryError := summaryError s;
     summary := summary s |}.

Definition setShowSummary (b : bool) (s : Ui) : Ui :=
  {| retryCount := retryCount s; showSummary := b;
     summaryLoading := summaryLoading s; summaryError := summaryError s;
     summary := summary s |}.

Definition setHook (loading err data : bool) (s : Ui) : Ui :=
  {| retryCount := retryCount s; showSummary := showSummary s;
     summaryLoading := loading; summaryError := err; summary := data |}.

(** [handleRetrySummary], up to its [await]: the counter goes up and the
    summary is requested. *)
Definition handleRetrySummary (s : Ui) : Ui * list SummaryCall :=
  (setRetryCount (λ prev, prev + 1) s, [request RetryButton]).

(** The [onClick] of the summary button, up to its [await]. *)
Definition handleGetSummary (s : Ui) : Ui * list SummaryCall :=
  (s, [request GetSummaryButton]).

(** One event: the new state and the summary requests it sent.  A click
    on a button that is not rendered or is disabled reaches no handler. *)
Definition step (s : Ui) (e : Event) : Ui * list SummaryCall :=
  match e with
  | ClickGetSummary =>
      if getSummaryEnabled s then handleGetSummary s else (s, [])
  | ClickRetry =>
      if retryRendered s && negb (retryDisabled s)
      then handleRetrySummary s else (s, [])
  | HookState loading err data => (setHook loading err data s, [])
  | Settled true => (setShowSummary true s, [])
  | Settled false => (s, [])
  end.

Fixpoint run (s : Ui) (events : list Event) : Ui * list SummaryCall :=
  match events with
  | [] => (s, [])
  | e :: rest =>
      let '(s1, sent1) := step s e in
      let '(s2, sent2) := run s1 rest in
      (s2, sent1 ++ sent2)
  end.

Definition retryCalls (sent : list SummaryCall) : nat :=
  length (List.filter (λ c, bool_decide (caller c = RetryButton)) sent).

End Mounted.

End SummaryRetry.

(** ** The aggregator of the backend *)

Module Aggregator.

(** Modelled from the spec: a classified signal (spec 3), a risk label with
    a confidence.  The backend classifier and aggregator are not among the
    sources.  The document of the signal is left out: its date only breaks
    ties between signals of equal severity and does not change a
    severity. *)
Record ClassifiedSignal : Type := {
  label : Severity * Category;
  signal_confidence : Q
}.

(** Modelled from the spec: the ordering High > Medium > Low > Unknown. *)
Definition rank (s : Severity) : nat :=
  match s with
  | High => 3 | Medium => 2 | Low => 1 | Unknown => 0
  end.

(** Modelled from the spec: the maximum of two severities. *)
Definition maxSeverity (a b : Severity) : Severity :=
  if rank a <? rank b then b else a.

(** Modelled from the spec: "a category's severity is the maximum severity
    among its signals"; a category without signals is Unknown. *)
Definition categorySeverity (signals : list ClassifiedSignal) (c : Category)
  : Severity :=
  foldr maxSeverity Unknown
    ((λ s, (label s).1)
       <$> List.filter (λ s, bool_decide ((label s).2 = c)) signals).

(** Modelled from the spec: the company risk profile (spec 3), without the
    company id and the time stamp, with the "no evidence" flag of the
    empty signal set. *)
Record CompanyRiskProfile : Type := {
  per_category : Category → Severity;
  overall : Severity;
  no_evidence : bool
}.

(** Modelled from the spec: [aggregate] (spec 4.3), "overall is the
    maximum severity across categories". *)
Definition aggregate (signals : list ClassifiedSignal)
  : CompanyRiskProfile :=
  {| per_category := categorySeverity signals;
     overall :=
       foldr maxSeverity Unknown (categorySeverity signals <$> allCategories);
     no_evidence := match signals with [] => true | _ => false end |}.

(** Modelled from the spec: the traffic-light mapping
    "High→red, Medium→orange, Low/Unknown→green". *)
Definition trafficLight (s : Severity) : TrafficColor :=
  match s with
  | High => red
  | Medium => orange
  | Low | Unknown => green
  end.

(** Modelled from the spec: the search result that carries a signal, its
    risk level written ["<Severity>-<Category>"] (spec 6). *)
Definition searchResult (s : ClassifiedSignal) : SearchResultItem :=
  {| risk_level :=
       match (label s).1 with
       | Unknown => "Unknown"
       | sev => riskLabel sev (label s).2
       end;
     date := ""; title := ""; summary := None; source := "";
     confidence := signal_confidence s; url := "" |}.

End Aggregator.

(** A search response with the given results and nothing else. *)
Definition responseOf (company : string) (l : list SearchResultItem)
  : SearchResponse :=
  {| company_name := company;
     search_date := "";
     date_range := {| range_start := None; range_end := None; days_back := 0 |};
     results := Some l;
     metadata :=
       {| total_results := length l; boe_results := 0; news_results := 0;
          rss_results := 0; high_risk_results := 0; sources_searched := [] |} |}.

(** A result with the given risk level and confidence. *)
Definition resultWith (level : string) (conf : Q) : SearchResultItem :=
  {| risk_level := level; date := ""; title := ""; summary := None;
     source := ""; confidence := conf; url := "" |}.

(** ** Further parts of the component and of the test page *)

(** The verdicts of the conversion from best to worst, in the order its
    [if] chain prefers them. *)
Definition trafficRank (c : TrafficColor) : nat :=
  match c with
  | green => 0
  | orange => 1
  | red => 2
  end.

#[global] Instance RiskIcon_eq_dec : EqDecision RiskIcon.
Proof. solve_decision. Defined.

(** The rows of the detailed results table that show a given icon. *)
Definition iconCount (icon : RiskIcon) (rows : list RiskChip) : nat :=
  length (List.filter (λ row, bool_decide (chipIcon row = icon)) rows).

(** The keys of [dataSourcesMap], as written in the source. *)
Definition dataSourceKeys : list string :=
  ["turnover"; "shareholding"; "bankruptcy"; "legal"]%string.

(** An entry of [dataSourcesMap] (its icon, a rendered element, left out). *)
Record DataSource : Type := {
  primarySource : string;
  secondarySources : list string;
  description : string;
  lastUpdated : string
}.

(** [dataSourcesMap]: map parameters to their data sources. *)
Definition dataSourcesMap : gmap string DataSource :=
  <["turnover" :=
      {| primarySource := "SABI Bureau van Dijk Database";
         secondarySources :=
           ["Companies House"; "Annual Reports"; "Financial Statements"];
         description :=
           "Financial performance data sourced from official company filings and commercial databases";
         lastUpdated := "2024-01-15" |}]> (
  <["shareholding" :=
      {| primarySource := "Companies House Registry";
         secondarySources :=
           ["PSC Register"; "Shareholding Disclosures"; "Regulatory Filings"];
         description :=
           "Ownership structure verified through official company registrations and regulatory submissions";
         lastUpdated := "2024-01-12" |}]> (
  <["bankruptcy" :=
      {| primarySource := "Insolvency Service Records";
         secondarySources :=
           ["Court Records"; "Gazette Notices"; "Credit Reference Agencies"];
         description :=
           "Insolvency history tracked through official court records and regulatory announcements";
         lastUpdated := "2024-01-10" |}]> (
  <["legal" :=
      {| primarySource := "UK Court Service";
         secondarySources :=
           ["Legal Databases"; "Regulatory Actions"; "Public Records"];
         description :=
           "Legal proceedings monitored through court systems and regulatory enforcement databases";
         lastUpdated := "2024-01-08" |}]> ∅)))%string.

(** [s || fallback] on a string: the empty string is falsy. *)
Definition orString (s fallback : string) : string :=
  if bool_decide (s = "") then fallback else s.

(** [dataSourcesMap[param]?.field || fallback].  An inherited value is a
    function or an object without the three fields read here, so reading
    one of them gives [undefined]. *)
Definition dataSourceField (field : DataSource → string) (fallback : string)
    (param : string) : string :=
  match Js.get dataSourcesMap param with
  | Js.Own d => orString (field d) fallback
  | Js.Inherited _ | Js.Undefined => fallback
  end.

(** The "Data Source" cell of a parameter row, its tooltip and the "Last
    Updated" cell. *)
Definition dataSourceCell : string → string :=
  dataSourceField primarySource "—".

Definition dataSourceTooltip : string → string :=
  dataSourceField description "".

Definition lastUpdatedCell : string → string :=
  dataSourceField lastUpdated "—".

(** The summary requests the "Get Management Summary" button sent. *)
Definition getSummaryCalls (sent : list SummaryRetry.SummaryCall) : nat :=
  length
    (List.filter
       (λ c, bool_decide (SummaryRetry.caller c = SummaryRetry.GetSummaryButton))
       sent).

(** The clicks among the events of the component. *)
Definition isClick (e : SummaryRetry.Event) : bool :=
  match e with
  | SummaryRetry.ClickGetSummary | SummaryRetry.ClickRetry => true
  | SummaryRetry.HookState _ _ _ | SummaryRetry.Settled _ => false
  end.

(** One use of the summary button: the click, the hook reporting the request
    in flight, the hook reporting its outcome, the awaited promise settling. *)
Definition summaryRound (failed : bool) : list SummaryRetry.Event :=
  [ SummaryRetry.ClickGetSummary;
    SummaryRetry.HookState true false false;
    SummaryRetry.HookState false failed (negb failed);
    SummaryRetry.Settled true ].

(** ** The tests of the integration page that call the backend *)

Module TestPage.

(** A computation inside the [try] block of a test: it completes with a
    value, or an error with the given message is thrown and caught. *)
Inductive Try (A : Type) : Type :=
| Done (a : A)
| Thrown (message : string).
Arguments Done {A} a.
Arguments Thrown {A} message.

#[global] Instance Try_bind : MBind Try := λ A B k t,
  match t with
  | Done a => k a
  | Thrown message => Thrown message
  end.

(** A value read from the parsed body, by the two ways the page uses it: as
    a condition ([v || fallback]) and as text ([`${v}`]).  The conversion to
    text can throw a [TypeError]: an object of the body whose [toString]
    entry is not a function has no primitive value. *)
Record JsValue : Type := {
  toBoolean : bool;
  toText : Try string
}.

(** [`${v || fallback}`] *)
Definition orText (v : JsValue) (fallback : string) : Try string :=
  if toBoolean v then toText v else Done fallback.

(** The parsed body of a response: JSON [null], on which reading a property
    throws a [TypeError] with the given message, or a value whose properties
    can be read. *)
Inductive Parsed (D : Type) : Type :=
| NullBody (typeError : string)
| Body (data : D).
Arguments NullBody {D} typeError.
Arguments Body {D} data.

(** What [await fetch(...)] followed by [await response.json()] delivers:
    [fetch] rejects; or the response arrives and its body is not JSON, so
    [response.json()] rejects; or the body is parsed. *)
Inductive Outcome (D : Type) : Type :=
| FetchRejected (message : string)
| JsonRejected (status : nat) (message : string)
| Responded (status : nat) (body : Parsed D).
Arguments FetchRejected {D} message.
Arguments JsonRejected {D} status message.
Arguments Responded {D} status body.

(** The part of the [try] block up to the parsed body. *)
Definition parsedBody {D} (o : Outcome D) : Try (nat * D) :=
  match o with
  | FetchRejected message => Thrown message
  | JsonRejected _ message => Thrown message
  | Responded _ (NullBody typeError) => Thrown typeError
  | Responded status (Body data) => Done (status, data)
  end.

(** [response.ok]: the status is in the range 200 to 299. *)
Definition ok (status : nat) : bool := (200 <=? status) && (status <=? 299).

(** What a test leaves in its element of the page: the card of a passed test
    with the values it shows, or the card of a failed test with the message
    of the error caught and, for the health check, the hint naming the
    backend URL. *)
Inductive Report (P : Type) : Type :=
| Passed (shown : P)
| Failed (message : string) (hint : option string).
Arguments Passed {P} shown.
Arguments Failed {P} message hint.

(** The [catch] block: the card of the error caught. *)
Definition report {P} (t : Try P) (hint : option string) : Report P :=
  match t with
  | Done shown => Passed shown
  | Thrown message => Failed message hint
  end.

Definition BACKEND_URL : string := "http://localhost:8000".

(** [throw new Error(`HTTP ${response.status}: ${data.detail || "Unknown
    error"}`)]: the error thrown is that one, unless building its message
    throws first. *)
Definition throwHttpError {P} (status : nat) (detail : JsValue) : Try P :=
  d ← orText detail "Unknown error";
  Thrown ("HTTP " +:+ pretty status +:+ ": " +:+ d).

(** The properties [testBackendHealth] reads from the body. *)
Record HealthData : Type := {
  health_status : JsValue;
  health_message : JsValue;
  health_version : JsValue;
  health_detail : JsValue
}.

Record HealthShown : Type := {
  shownStatus : string;
  shownMessage : string;
  shownVersion : string
}.

Definition healthHint : option string :=
  Some ("Make sure the backend is running on " +:+ BACKEND_URL).

(** The [try] block of [testBackendHealth]. *)
Definition healthAttempt (o : Outcome HealthData) : Try HealthShown :=
  '(status, data) ← parsedBody o;
  if ok status then
    st ← toText (health_status data);
    msg ← toText (health_message data);
    ver ← toText (health_version data);
    Done {| shownStatus := st; shownMessage := msg; shownVersion := ver |}
  else throwHttpError status (health_detail data).

(** [testBackendHealth], by what the backend answered: the final content of
    the element [health-result]. *)
Definition testBackendHealth (o : Outcome HealthData) : Report HealthShown :=
  report (healthAttempt o) healthHint.

(** The value of [data.results], by what [data.results?.slice(0, 3)] makes
    of it: nothing for [null] or a missing field, the first elements of an
    array, the first code units of a string, and a [TypeError] for any other
    value, which has no method [slice]. *)
Inductive ResultsField (J : Type) : Type :=
| NoResultsField
| ResultsArray (elements : list J)
| ResultsString (units : list nat)
| NotSliceable (typeError : string).
Arguments NoResultsField {J}.
Arguments ResultsArray {J} elements.
Arguments ResultsString {J} units.
Arguments NotSliceable {J} typeError.

Inductive Sample (J : Type) : Type :=
| SampleUndefined
| SampleArray (elements : list J)
| SampleString (units : list nat).
Arguments SampleUndefined {J}.
Arguments SampleArray {J} elements.
Arguments SampleString {J} units.

(** What [testStreamlinedSearch] reads from the body: [data.company_name],
    [data.metadata?.total_results], [data.performance?.total_time_seconds],
    [data.results] and [data.detail].  [J] is the type of the elements of an
    array of the body. *)
Record SearchData (J : Type) : Type := {
  search_company_name : JsValue;
  search_total_results : JsValue;
  search_total_time_seconds : JsValue;
  search_results : ResultsField J;
  search_detail : JsValue
}.
Arguments search_company_name {J} _.
Arguments search_total_results {J} _.
Arguments search_total_time_seconds {J} _.
Arguments search_results {J} _.
Arguments search_detail {J} _.

Record SearchShown (J : Type) : Type := {
  shownCompany : string;
  shownTotal : string;
  shownTime : string;
  shownSample : Sample J
}.
Arguments shownCompany {J} _.
Arguments shownTotal {J} _.
Arguments shownTime {J} _.
Arguments shownSample {J} _.

(** [data.results?.slice(0, 3)] *)
Definition resultsSample {J} (r : ResultsField J) : Try (Sample J) :=
  match r with
  | NoResultsField => Done SampleUndefined
  | ResultsArray elements => Done (SampleArray (take 3 elements))
  | ResultsString units => Done (SampleString (take 3 units))
  | NotSliceable typeError => Thrown typeError
  end.

(** The [try] block of [testStreamlinedSearch]. *)
Definition searchAttempt {J} (o : Outcome (SearchData J))
  : Try (SearchShown J) :=
  '(status, data) ← parsedBody o;
  if ok status then
    name ← toText (search_company_name data);
    total ← orText (search_total_results data) "0";
    time ← orText (search_total_time_seconds data) "N/A";
    sample ← resultsSample (search_results data);
    Done {| shownCompany := name; shownTotal := total; shownTime := time;
            shownSample := sample |}
  else throwHttpError status (search_detail data).

(** [testStreamlinedSearch], by what the backend answered: the final content
    of the element [search-result]. *)
Definition testStreamlinedSearch {J} (o : Outcome (SearchData J))
  : Report (SearchShown J) :=
  report (searchAttempt o) None.

End TestPage.

(** * Properties *)

(** ** The risk chip *)

Section RiskChipFacts.

Lemma riskLevelColorMap_unlisted (s : string) :
  s ∉ riskLevelKeys → riskLevelColorMap !! s = None.
Proof.
  intros Hs. unfold riskLevelColorMap.
  repeat (rewrite lookup_insert_ne;
          [| intros <-; apply Hs; unfold riskLevelKeys; set_solver]).
  apply lookup_empty.
Qed.

Lemma riskLevelColorMap_listed (s : string) :
  s ∈ riskLevelKeys → is_Some (riskLevelColorMap !! s).
Proof.
  unfold riskLevelKeys. rewrite !elem_of_cons, elem_of_nil.
  intros H. repeat (destruct H as [-> | H]; [by eexists |]). done.
Qed.

(** A label that is neither a key of the table nor a property name of
    [Object.prototype] takes the default colour. *)
Lemma riskChipColor_unlisted (s : string) :
  s ∉ riskLevelKeys → s ∉ Js.objectPrototypeKeys →
  riskChipColor s = Named default.
Proof.
  intros Hs Hp. unfold riskChipColor, Js.get.
  rewrite (riskLevelColorMap_unlisted s Hs).
  by rewrite bool_decide_false.
Qed.

(** A key of the table takes a colour name. *)
Lemma riskChipColor_listed (s : string) :
  s ∈ riskLevelKeys → ∃ c, riskChipColor s = Named c.
Proof.
  intros [c Hc]%riskLevelColorMap_listed.
  exists c. unfold riskChipColor, Js.get. by rewrite Hc.
Qed.

(** A property name of [Object.prototype] takes the inherited value. *)
Lemma riskChipColor_inherited (s : string) :
  s ∈ Js.objectPrototypeKeys → riskChipColor s = NotAString s.
Proof.
  unfold Js.objectPrototypeKeys. rewrite !elem_of_cons, elem_of_nil.
  intros H. repeat (destruct H as [-> | H]; [reflexivity |]). done.
Qed.

End RiskChipFacts.

(** Not every label "High-<Category>" is shown in the error colour and
    every label "Low-<Category>" in the success colour: the table has no
    entry for High-Tax. *)
Lemma C2_high_low_all_categories_fails :
  ¬ (∀ c : Category,
        riskChipColor (riskLabel High c) = Named error
        ∧ riskChipColor (riskLabel Low c) = Named success).
Proof.
  intros H. destruct (H Tax) as [Hhigh _]. vm_compute in Hhigh. discriminate.
Qed.

(** The colour of the High and of the Low label of each category, by the
    entries the table has. *)
Theorem C2_high_low_buckets (c : Category) :
  riskChipColor (riskLabel High c)
    = Named (if hasHighEntry c then error else default)
  ∧ riskChipColor (riskLabel Low c)
    = Named (if hasLowEntry c then success else default).
Proof. destruct c; split; reflexivity. Qed.

(** C2: a result labelled "High-Tax" is counted by the High counter and its
    chip has the error icon, as for every label that starts with "High", but
    the colour table has no entry for it and the chip is in the default
    colour, not in the error colour; the same for High-Economic and
    High-Other, and for Low-Tax and Low-Economic with the check icon and the
    default colour instead of the success colour. *)
Theorem C2_high_tax_default_colour :
  let item := resultWith "High-Tax" (9 # 10) in
  riskLabel High Tax = "High-Tax"
  ∧ riskChip item
    = {| chipLabel := "High-Tax"; chipColor := Named default;
         chipIcon := ErrorIcon |}
  ∧ highCount (summaryBar [item]) = 1
  ∧ riskChipColor "High-Legal" = Named error
  ∧ Forall (λ level, riskChipColor level = Named default
                     ∧ riskChipIcon level = ErrorIcon)
      ["High-Tax"; "High-Economic"; "High-Other"]%string
  ∧ Forall (λ level, riskChipColor level = Named default
                     ∧ riskChipIcon level = CheckCircleIcon)
      ["Low-Tax"; "Low-Economic"]%string.
Proof. repeat split; repeat constructor. Qed.

(** C4: the label "constructor" is not a recognised risk level, yet the
    lookup does not fall back to the default colour: it finds the property
    [constructor] every object inherits, and the chip receives that value
    instead of a colour name.  Labels such as "No-Legal" and "Unknown" do
    take the default colour. *)
Theorem C4_inherited_key_not_default :
  ("constructor" ∉ riskLevelKeys)
  ∧ riskChipColor "constructor" = NotAString "constructor"
  ∧ riskChipColor "constructor" ≠ Named default
  ∧ riskChipColor "No-Legal" = Named default
  ∧ riskChipColor "Unknown" = Named default.
Proof.
  split; [| repeat split; try reflexivity; by vm_compute].
  unfold riskLevelKeys. rewrite !not_elem_of_cons. repeat split; try done.
  apply not_elem_of_nil.
Qed.

(** ** The conversion *)

Section ConversionFacts.

Lemma filter_length_pos {A} (f : A → bool) (l : list A) :
  (0 <? length (List.filter f l)) = existsb f l.
Proof.
  induction l as [| a l IH]; simpl; [reflexivity |].
  destruct (f a); simpl; [reflexivity | exact IH].
Qed.

(** The verdict of the conversion, by the labels it looks for. *)
Lemma overallOf_existsb (l : list SearchResultItem) :
  overallOf l =
    if existsb isHighRisk l then red
    else if existsb isMediumRisk l then orange
    else green.
Proof.
  unfold overallOf, highRiskCount, mediumRiskCount.
  by rewrite !filter_length_pos.
Qed.

Lemma overallOf_red (l : list SearchResultItem) :
  overallOf l = red
  ↔ ∃ r, r ∈ l
         ∧ (risk_level r = "High-Legal" ∨ risk_level r = "High-Financial").
Proof.
  rewrite overallOf_existsb.
  destruct (existsb isHighRisk l) eqn:Hh.
  - split; [intros _ | done].
    apply existsb_exists in Hh as (r & Hin & Hr).
    exists r. split; [by apply list_elem_of_In |].
    unfold isHighRisk in Hr. apply orb_prop in Hr as [Hr | Hr];
      apply bool_decide_eq_true in Hr; auto.
  - split; [by destruct (existsb isMediumRisk l) |].
    intros (r & Hin & Hr). exfalso.
    assert (existsb isHighRisk l = true) as Ht; [| congruence].
    apply existsb_exists. exists r. split; [by apply list_elem_of_In |].
    unfold isHighRisk. destruct Hr as [-> | ->]; reflexivity.
Qed.

(** Only the two High labels and the two Medium labels move the verdict:
    without them it is green, whatever else the results say. *)
Lemma overallOf_green (l : list SearchResultItem) :
  Forall (λ r, isHighRisk r = false ∧ isMediumRisk r = false) l →
  overallOf l = green.
Proof.
  intros H. rewrite overallOf_existsb.
  assert (existsb isHighRisk l = false ∧ existsb isMediumRisk l = false)
    as [-> ->]; [| reflexivity].
  induction H as [| r l [Hh Hm] _ [IHh IHm]]; simpl; [done |].
  by rewrite Hh, Hm, IHh, IHm.
Qed.

End ConversionFacts.

(** A single result labelled "High-Regulatory" has High severity, the
    counter of High results counts it, its chip is in the error colour and
    the maximum severity over the categories is High (red); the conversion
    looks for High-Legal and High-Financial only and answers green. *)
Theorem C1_high_regulatory_is_green :
  let signal :=
    {| Aggregator.label := (High, Regulatory);
       Aggregator.signal_confidence := 9 # 10 |} in
  let results := [Aggregator.searchResult signal] in
  risk_level <$> results = ["High-Regulatory"]
  ∧ overall (convertedResult (responseOf "Acme" results)) = green
  ∧ highCount (summaryBar results) = 1
  ∧ riskChipColor "High-Regulatory" = Named error
  ∧ Aggregator.trafficLight
      (Aggregator.overall (Aggregator.aggregate [signal])) = red.
Proof. repeat split; reflexivity. Qed.

(** C5: for one High-Legal signal of confidence 0.9 and one Low-Financial
    signal of confidence 0.7 the profile has Legal High, Financial Low and
    overall High, its traffic light is red, and the conversion of the two
    results labelled "High-Legal" and "Low-Financial" gives red as well,
    shown as the chip RED in the error colour. *)
Theorem C5_high_legal_low_financial :
  let signals :=
    [ {| Aggregator.label := (High, Legal);
         Aggregator.signal_confidence := 9 # 10 |};
      {| Aggregator.label := (Low, Financial);
         Aggregator.signal_confidence := 7 # 10 |} ] in
  let profile := Aggregator.aggregate signals in
  let results := Aggregator.searchResult <$> signals in
  let converted := convertedResult (responseOf "Acme" results) in
  Aggregator.per_category profile Legal = High
  ∧ Aggregator.per_category profile Financial = Low
  ∧ Aggregator.overall profile = High
  ∧ Aggregator.trafficLight (Aggregator.overall profile) = red
  ∧ results = [resultWith "High-Legal" (9 # 10);
               resultWith "Low-Financial" (7 # 10)]
  ∧ overall converted = red
  ∧ ∃ card, TrafficLightResult converted = Results card
            ∧ overallChip card
              = {| trafficLabel := "RED"; trafficColor := error;
                   trafficIconOf := ErrorIcon |}.
Proof.
  repeat split; try reflexivity.
  eexists. split; reflexivity.
Qed.

(** C6: a response without results is converted to the verdict green, and
    the component then shows the card "No results found for this company."
    instead of the verdict; a response with results, a verified-low one
    included, is shown as a result card with its verdict chip, so the two
    are told apart on screen. *)
Theorem C6_empty_results_no_evidence (empty evidence : SearchResponse) :
  length (orEmpty (results empty)) = 0 →
  0 < length (orEmpty (results evidence)) →
  overall (convertedResult empty) = green
  ∧ TrafficLightResult (convertedResult empty)
    = NoResults "No results found for this company."
                "Try another search or check your spelling."
  ∧ (∃ card,
        TrafficLightResult (convertedResult evidence) = Results card
        ∧ overallChip card = trafficChip (overall (convertedResult evidence)))
  ∧ TrafficLightResult (convertedResult empty)
    ≠ TrafficLightResult (convertedResult evidence).
Proof.
  intros Hempty Hsome.
  assert (TrafficLightResult (convertedResult empty)
          = NoResults "No results found for this company."
                      "Try another search or check your spelling.") as Hview.
  { unfold TrafficLightResult, hasSearchResults, searchResultsOf. simpl.
    by rewrite Hempty. }
  assert (hasSearchResults (convertedResult evidence) = true) as Hhas.
  { unfold hasSearchResults, searchResultsOf. simpl.
    by apply Nat.ltb_lt. }
  split; [| split; [exact Hview | split]].
  - apply length_zero_iff_nil in Hempty.
    unfold convertedResult. simpl. by rewrite Hempty.
  - eexists. unfold TrafficLightResult. rewrite Hhas. simpl.
    split; reflexivity.
  - rewrite Hview. unfold TrafficLightResult. rewrite Hhas. simpl.
    discriminate.
Qed.

(** The empty response against a verified-low one: both verdicts are green,
    only the first is shown as "no results". *)
Lemma C6_empty_vs_verified_low :
  overall (convertedResult (responseOf "Acme" [])) = green
  ∧ TrafficLightResult (convertedResult (responseOf "Acme" []))
    = NoResults "No results found for this company."
                "Try another search or check your spelling."
  ∧ (∃ card,
        TrafficLightResult
          (convertedResult
             (responseOf "Acme" [resultWith "Low-Legal" (82 # 100)]))
        = Results card
        ∧ overallChip card
          = trafficChip
              (overall
                 (convertedResult
                    (responseOf "Acme" [resultWith "Low-Legal" (82 # 100)]))))
  ∧ TrafficLightResult (convertedResult (responseOf "Acme" []))
    ≠ TrafficLightResult
        (convertedResult
           (responseOf "Acme" [resultWith "Low-Legal" (82 # 100)])).
Proof.
  apply (C6_empty_results_no_evidence
           (responseOf "Acme" [])
           (responseOf "Acme" [resultWith "Low-Legal" (82 # 100)]));
    [reflexivity | simpl; lia].
Defined.

(** What the test page shows after its conversion test: the conversion of
    the mock response, whose verdict is green. *)
Lemma testDataConversion_mock (p : Page) :
  conversion_result (testDataConversion p)
  = ConversionPassed mockSearchResponse (convertedResult mockSearchResponse)
  ∧ overall (convertedResult mockSearchResponse) = green.
Proof. split; reflexivity. Qed.

(** C9: whatever the search response, the converted result has the VAT
    "N/A" and the four blocks turnover, shareholding, bankruptcy and legal
    all green, so every row of the "Detailed Parameters" table shows GREEN in
    the success colour, the same for any two responses. *)
Theorem C9_blocks_always_green (response other : SearchResponse) :
  let greenChip :=
    {| trafficLabel := "GREEN"; trafficColor := success;
       trafficIconOf := CheckCircleIcon |} in
  let rows :=
    [ {| rowKey := "turnover"; rowName := Js.Own "Financial Turnover";
         rowRisk := greenChip |};
      {| rowKey := "shareholding"; rowName := Js.Own "Shareholding Structure";
         rowRisk := greenChip |};
      {| rowKey := "bankruptcy"; rowName := Js.Own "Bankruptcy History";
         rowRisk := greenChip |};
      {| rowKey := "legal"; rowName := Js.Own "Legal Issues";
         rowRisk := greenChip |} ]%string in
  vat (convertedResult response) = "N/A"
  ∧ blocks (convertedResult response)
    = [ ("turnover", green); ("shareholding", green);
        ("bankruptcy", green); ("legal", green) ]%string
  ∧ blocks (convertedResult response) = blocks (convertedResult other)
  ∧ parameterRow <$> blocks (convertedResult response) = rows
  ∧ match TrafficLightResult (convertedResult response) with
    | Results card => cardVat card = "N/A" ∧ parameterRows card = rows
    | NoResults _ _ => True
    end.
Proof.
  repeat split; try reflexivity.
  unfold TrafficLightResult.
  destruct (hasSearchResults (convertedResult response)); simpl; [| done].
  split; reflexivity.
Qed.

(** ** The counters of the summary bar *)

Section CounterFacts.

Lemma filter_length_cons {A} (f : A → bool) (a : A) (l : list A) :
  length (List.filter f (a :: l)) = Nat.b2n (f a) + length (List.filter f l).
Proof. simpl. by destruct (f a). Qed.

(** The three prefixes differ in their first letter: a risk level is counted
    by at most one counter, and by none exactly when it has no such prefix. *)
Lemma severity_prefix_exclusive (level : string) :
  Nat.b2n (Js.startsWith level "High") + Nat.b2n (Js.startsWith level "Medium")
  + Nat.b2n (Js.startsWith level "Low") + Nat.b2n (negb (hasSeverityPrefix level))
  = 1.
Proof.
  unfold hasSeverityPrefix.
  destruct level as [| c rest]; [reflexivity |].
  cbn [Js.startsWith].
  repeat match goal with
         | |- context [Ascii.eqb ?a c] =>
             destruct (Ascii.eqb_spec a c) as [<- | _]
         end;
    repeat match goal with
           | |- context [Js.startsWith rest ?p] =>
               destruct (Js.startsWith rest p)
           end;
    reflexivity.
Qed.

Lemma counters_partition (l : list SearchResultItem) :
  length l
  = countStartsWith "High" l + countStartsWith "Medium" l
    + countStartsWith "Low" l
    + length (List.filter (λ r, negb (hasSeverityPrefix (risk_level r))) l).
Proof.
  unfold countStartsWith.
  induction l as [| r l IH]; [reflexivity |].
  rewrite !filter_length_cons. cbn [length].
  pose proof (severity_prefix_exclusive (risk_level r)). lia.
Qed.


End CounterFacts.


(** ** The retry button *)

Section RetryFacts.

Import SummaryRetry.

Variable result : TrafficLightResponse.

Lemma retryCalls_app (a b : list SummaryCall) :
  retryCalls (a ++ b) = retryCalls a + retryCalls b.
Proof. unfold retryCalls. by rewrite List.filter_app, length_app. Qed.

(** One event sends at most one retry request, counted by [retryCount], and
    none once the counter is at 3. *)
Lemma step_retryCount (s : Ui) (e : Event) :
  retryCount s ≤ 3 →
  retryCount (step result s e).1
    = retryCount s + retryCalls (step result s e).2
  ∧ retryCount (step result s e).1 ≤ 3.
Proof.
  intros Hle. unfold retryCalls.
  destruct e as [| | loading err data | [|]]; cbn [step].
  - destruct (getSummaryEnabled result s); simpl; lia.
  - unfold retryDisabled.
    destruct (retryRendered result s); cbn [andb]; [| simpl; lia].
    destruct (Nat.leb_spec 3 (retryCount s)); simpl; lia.
  - simpl; lia.
  - simpl; lia.
  - simpl; lia.
Qed.

Lemma run_retryCount (events : list Event) (s : Ui) :
  retryCount s ≤ 3 →
  retryCount (run result s events).1
    = retryCount s + retryCalls (run result s events).2
  ∧ retryCount (run result s events).1 ≤ 3.
Proof.
  revert s. induction events as [| e rest IH]; intros s Hle; simpl.
  - unfold retryCalls. simpl. lia.
  - destruct (step_retryCount s e Hle) as [Hstep Hle1].
    destruct (step result s e) as [s1 sent1]. simpl in Hstep, Hle1.
    destruct (IH s1 Hle1) as [Hrun Hle2].
    destruct (run result s1 rest) as [s2 sent2]. simpl in *.
    rewrite retryCalls_app. lia.
Qed.

(** The summary button is not gated by the counter: with results on screen
    and no request in flight it still sends a request after three retries. *)
Lemma getSummary_after_max_retries (s : Ui) :
  hasSearchResults result = true →
  summaryLoading s = false →
  (step result s ClickGetSummary).2 = [request result GetSummaryButton].
Proof.
  intros Hhas Hload. simpl. unfold getSummaryEnabled.
  rewrite Hhas, Hload.
  unfold hasSearchResults in Hhas. apply Nat.ltb_lt in Hhas.
  rewrite bool_decide_false by lia. reflexivity.
Qed.

End RetryFacts.

(** Whatever happens to the mounted component, the retry handler
    requests the summary at most 3 times, once per unit of [retryCount].
    After the third retry the button is disabled and reads "Max retries
    reached", a further click on it changes nothing and sends no request,
    and nothing that follows makes the retry handler request the summary
    again. *)
Theorem C3_retry_at_most_three
  (result : TrafficLightResponse) (events more : list SummaryRetry.Event) :
  let s := (SummaryRetry.run result SummaryRetry.initial events).1 in
  let sent := (SummaryRetry.run result SummaryRetry.initial events).2 in
  SummaryRetry.retryCalls sent ≤ 3
  ∧ SummaryRetry.retryCalls sent = SummaryRetry.retryCount s
  ∧ (SummaryRetry.retryCalls sent = 3 →
     SummaryRetry.retryDisabled s = true
     ∧ SummaryRetry.retryLabel s = "Max retries reached"
     ∧ SummaryRetry.step result s SummaryRetry.ClickRetry = (s, [])
     ∧ SummaryRetry.retryCalls (SummaryRetry.run result s more).2 = 0).
Proof.
  cbn zeta.
  destruct (run_retryCount result events SummaryRetry.initial) as [Hcount Hle];
    [simpl; lia |].
  simpl in Hcount.
  split; [lia | split; [lia |]].
  intros H3.
  assert (SummaryRetry.retryCount
            (SummaryRetry.run result SummaryRetry.initial events).1 = 3)
    as Hc by lia.
  destruct (run_retryCount
              result more
              (SummaryRetry.run result SummaryRetry.initial events).1)
    as [Hmore Hle']; [lia |].
  cbn [SummaryRetry.step].
  unfold SummaryRetry.retryDisabled, SummaryRetry.retryLabel.
  rewrite Hc. cbn [Nat.leb negb]. rewrite andb_false_r.
  repeat split; try reflexivity. lia.
Qed.

(** Three failed retries after a failed first request, then a fourth click
    on the retry button. *)
Lemma C3_three_failed_retries :
  let result :=
    convertedResult (responseOf "Acme" [resultWith "Low-Legal" (82 # 100)]) in
  let failed := SummaryRetry.HookState false true false in
  let events :=
    [ SummaryRetry.ClickGetSummary; failed;
      SummaryRetry.ClickRetry; failed;
      SummaryRetry.ClickRetry; failed;
      SummaryRetry.ClickRetry; failed ] in
  let s := (SummaryRetry.run result SummaryRetry.initial events).1 in
  SummaryRetry.retryCalls
    (SummaryRetry.run result SummaryRetry.initial events).2 = 3
  ∧ SummaryRetry.retryDisabled s = true
  ∧ SummaryRetry.retryLabel s = "Max retries reached"
  ∧ SummaryRetry.step result s SummaryRetry.ClickRetry = (s, [])
  ∧ SummaryRetry.retryCalls
      (SummaryRetry.run result s
         [SummaryRetry.ClickRetry; failed; SummaryRetry.ClickRetry]).2 = 0.
Proof.
  cbn zeta. split; [reflexivity |].
  apply (C3_retry_at_most_three
           (convertedResult
              (responseOf "Acme" [resultWith "Low-Legal" (82 # 100)]))
           [ SummaryRetry.ClickGetSummary;
             SummaryRetry.HookState false true false;
             SummaryRetry.ClickRetry;
             SummaryRetry.HookState false true false;
             SummaryRetry.ClickRetry;
             SummaryRetry.HookState false true false;
             SummaryRetry.ClickRetry;
             SummaryRetry.HookState false true false ]
           [ SummaryRetry.ClickRetry;
             SummaryRetry.HookState false true false;
             SummaryRetry.ClickRetry ]).
  reflexivity.
Defined.

(** C3: after a failed first request and three failed retries the retry
    button is disabled, reads "Max retries reached" and a click on it sends
    nothing; a click on the summary button, which is enabled, then sends the
    same request, company and results, a fifth time. *)
Theorem C3_request_after_max_retries :
  let result :=
    convertedResult (responseOf "Acme" [resultWith "Low-Legal" (82 # 100)]) in
  let failed := SummaryRetry.HookState false true false in
  let events :=
    [ SummaryRetry.ClickGetSummary; failed;
      SummaryRetry.ClickRetry; failed;
      SummaryRetry.ClickRetry; failed;
      SummaryRetry.ClickRetry; failed ] in
  let s := (SummaryRetry.run result SummaryRetry.initial events).1 in
  let sent := (SummaryRetry.run result SummaryRetry.initial events).2 in
  length sent = 4
  ∧ SummaryRetry.retryCalls sent = 3
  ∧ SummaryRetry.retryDisabled s = true
  ∧ SummaryRetry.retryLabel s = "Max retries reached"
  ∧ SummaryRetry.step result s SummaryRetry.ClickRetry = (s, [])
  ∧ SummaryRetry.getSummaryEnabled result s = true
  ∧ SummaryRetry.step result s SummaryRetry.ClickGetSummary
    = (s, [SummaryRetry.request result SummaryRetry.GetSummaryButton])
  ∧ (SummaryRetry.run result SummaryRetry.initial
       (events ++ [SummaryRetry.ClickRetry; SummaryRetry.ClickGetSummary])).2
    = sent ++ [SummaryRetry.request result SummaryRetry.GetSummaryButton]
  ∧ Forall
      (λ c, SummaryRetry.call_company_name c = "Acme"
            ∧ SummaryRetry.classification_results c
              = [resultWith "Low-Legal" (82 # 100)])
      (sent ++ [SummaryRetry.request result SummaryRetry.GetSummaryButton]).
Proof. repeat split; repeat constructor. Qed.

(** ** More on the conversion *)

Section VerdictFacts.

Lemma existsb_isHighRisk (l : list SearchResultItem) :
  existsb isHighRisk l = true
  ↔ ∃ r, r ∈ l
         ∧ (risk_level r = "High-Legal" ∨ risk_level r = "High-Financial").
Proof.
  rewrite existsb_exists. split; intros (r & Hin & Hr); exists r.
  - split; [by apply list_elem_of_In |].
    apply orb_prop in Hr as [Hr | Hr]; apply bool_decide_eq_true in Hr; auto.
  - split; [by apply list_elem_of_In |].
    unfold isHighRisk. destruct Hr as [-> | ->]; reflexivity.
Qed.

Lemma existsb_isMediumRisk (l : list SearchResultItem) :
  existsb isMediumRisk l = true
  ↔ ∃ r, r ∈ l
         ∧ (risk_level r = "Medium-Legal"
            ∨ risk_level r = "Medium-Financial").
Proof.
  rewrite existsb_exists. split; intros (r & Hin & Hr); exists r.
  - split; [by apply list_elem_of_In |].
    apply orb_prop in Hr as [Hr | Hr]; apply bool_decide_eq_true in Hr; auto.
  - split; [by apply list_elem_of_In |].
    unfold isMediumRisk. destruct Hr as [-> | ->]; reflexivity.
Qed.

Lemma filter_length_perm {A} (f : A → bool) (l l' : list A) :
  l ≡ₚ l' → length (List.filter f l) = length (List.filter f l').
Proof.
  induction 1 as [| a l l' _ IH | a b l | l l' l'' _ IH1 _ IH2]; simpl.
  - reflexivity.
  - destruct (f a); simpl; by rewrite IH.
  - destruct (f a), (f b); reflexivity.
  - by rewrite IH1.
Qed.

Lemma filter_length_le {A} (f g : A → bool) (l : list A) :
  (∀ a, f a = true → g a = true) →
  length (List.filter f l) ≤ length (List.filter g l).
Proof.
  intros Himp. induction l as [| a l IH]; simpl; [lia |].
  destruct (f a) eqn:Hf.
  - rewrite (Himp a Hf). simpl. lia.
  - destruct (g a); simpl; lia.
Qed.

End VerdictFacts.




(** The verdict of the conversion by the labels of the results: red exactly
    when some result is labelled "High-Legal" or "High-Financial"; orange
    exactly when none is and some result is labelled "Medium-Legal" or
    "Medium-Financial"; green exactly when none of the four labels occurs. *)
Theorem overallOf_cases (l : list SearchResultItem) :
  let high r := risk_level r = "High-Legal" ∨ risk_level r = "High-Financial" in
  let medium r :=
    risk_level r = "Medium-Legal" ∨ risk_level r = "Medium-Financial" in
  (overallOf l = red ↔ ∃ r, r ∈ l ∧ high r)
  ∧ (overallOf l = orange ↔ (∀ r, r ∈ l → ¬ high r) ∧ ∃ r, r ∈ l ∧ medium r)
  ∧ (overallOf l = green ↔ ∀ r, r ∈ l → ¬ high r ∧ ¬ medium r).
Proof.
  cbn zeta. rewrite overallOf_existsb.
  destruct (existsb isHighRisk l) eqn:Eh.
  { apply existsb_isHighRisk in Eh as (r & Hin & Hr).
    split; [| split]; split.
    - intros _. by exists r.
    - reflexivity.
    - discriminate.
    - intros [Hno _]. destruct (Hno r Hin Hr).
    - discriminate.
    - intros Hno. destruct (Hno r Hin) as [Hn _]. destruct (Hn Hr). }
  assert (∀ r, r ∈ l → ¬ (risk_level r = "High-Legal"
                           ∨ risk_level r = "High-Financial")) as Hnone.
  { intros r Hin Hr.
    assert (existsb isHighRisk l = true) as Ht; [| congruence].
    apply existsb_isHighRisk. by exists r. }
  destruct (existsb isMediumRisk l) eqn:Em.
  { apply existsb_isMediumRisk in Em as (r & Hin & Hr).
    split; [| split]; split.
    - discriminate.
    - intros (r' & Hin' & Hr'). destruct (Hnone r' Hin' Hr').
    - intros _. split; [exact Hnone | by exists r].
    - reflexivity.
    - discriminate.
    - intros Hno. destruct (Hno r Hin) as [_ Hn]. destruct (Hn Hr). }
  split; [| split]; split.
  - discriminate.
  - intros (r' & Hin' & Hr'). destruct (Hnone r' Hin' Hr').
  - discriminate.
  - intros [_ (r & Hin & Hr)].
    assert (existsb isMediumRisk l = true) as Ht; [| congruence].
    apply existsb_isMediumRisk. by exists r.
  - intros _ r Hin. split; [by apply Hnone |]. intros Hr.
    assert (existsb isMediumRisk l = true) as Ht; [| congruence].
    apply existsb_isMediumRisk. by exists r.
  - reflexivity.
Qed.

(** The verdict of two lists of results put together is the worse of their
    two verdicts: further results never improve a verdict. *)
Theorem overallOf_app (l1 l2 : list SearchResultItem) :
  trafficRank (overallOf (l1 ++ l2))
  = trafficRank (overallOf l1) `max` trafficRank (overallOf l2).
Proof.
  rewrite !overallOf_existsb, !existsb_app.
  destruct (existsb isHighRisk l1), (existsb isHighRisk l2),
    (existsb isMediumRisk l1), (existsb isMediumRisk l2); reflexivity.
Qed.

(** The order of the results changes neither the verdict of the conversion
    nor the counters of the summary bar. *)
Theorem verdict_and_counters_permutation (l l' : list SearchResultItem) :
  l ≡ₚ l' →
  overallOf l = overallOf l' ∧ summaryBar l = summaryBar l'.
Proof.
  intros Hp. split.
  - unfold overallOf, highRiskCount, mediumRiskCount.
    by rewrite (filter_length_perm isHighRisk l l' Hp),
      (filter_length_perm isMediumRisk l l' Hp).
  - unfold summaryBar, countStartsWith.
    rewrite (Permutation_length Hp).
    by rewrite !(filter_length_perm _ l l' Hp).
Qed.

Lemma verdict_and_counters_permutation_example :
  overallOf [resultWith "High-Legal" (9 # 10); resultWith "No-Legal" (8 # 10)]
  = overallOf [resultWith "No-Legal" (8 # 10); resultWith "High-Legal" (9 # 10)]
  ∧ summaryBar
      [resultWith "High-Legal" (9 # 10); resultWith "No-Legal" (8 # 10)]
    = summaryBar
        [resultWith "No-Legal" (8 # 10); resultWith "High-Legal" (9 # 10)].
Proof.
  apply (verdict_and_counters_permutation
           [resultWith "High-Legal" (9 # 10); resultWith "No-Legal" (8 # 10)]
           [resultWith "No-Legal" (8 # 10); resultWith "High-Legal" (9 # 10)]).
  apply perm_swap.
Defined.

(** Every result the conversion counts as high or medium risk is counted by
    the High or the Medium counter of the summary bar: under a red verdict
    the High counter is positive, under an orange one the Medium counter. *)
Theorem conversion_counts_below_counters (l : list SearchResultItem) :
  highRiskCount l ≤ highCount (summaryBar l)
  ∧ mediumRiskCount l ≤ mediumCount (summaryBar l)
  ∧ match overallOf l with
    | red => 0 < highCount (summaryBar l)
    | orange => 0 < mediumCount (summaryBar l)
    | green => True
    end.
Proof.
  assert (highRiskCount l ≤ highCount (summaryBar l)) as Hh.
  { apply filter_length_le. intros r Hr.
    apply orb_prop in Hr as [Hr | Hr]; apply bool_decide_eq_true in Hr;
      by rewrite Hr. }
  assert (mediumRiskCount l ≤ mediumCount (summaryBar l)) as Hm.
  { apply filter_length_le. intros r Hr.
    apply orb_prop in Hr as [Hr | Hr]; apply bool_decide_eq_true in Hr;
      by rewrite Hr. }
  split; [exact Hh | split; [exact Hm |]].
  unfold overallOf.
  destruct (Nat.ltb_spec 0 (highRiskCount l)); [lia |].
  destruct (Nat.ltb_spec 0 (mediumRiskCount l)); [lia | exact I].
Qed.

(** ** More on the risk chips *)

Section ChipFacts.

(** The icon of a chip, by the prefix of its label. *)
Lemma riskChipIcon_prefix (level : string) :
  bool_decide (riskChipIcon level = ErrorIcon) = Js.startsWith level "High"
  ∧ bool_decide (riskChipIcon level = WarningAmberIcon)
    = Js.startsWith level "Medium"
  ∧ bool_decide (riskChipIcon level = CheckCircleIcon)
    = Js.startsWith level "Low"
  ∧ bool_decide (riskChipIcon level = InfoOutlinedIcon)
    = negb (hasSeverityPrefix level).
Proof.
  pose proof (severity_prefix_exclusive level) as Hex.
  unfold riskChipIcon, hasSeverityPrefix in *.
  destruct (Js.startsWith level "High"), (Js.startsWith level "Medium"),
    (Js.startsWith level "Low"); simpl in Hex; try lia;
    repeat split; reflexivity.
Qed.

Lemma iconCount_filter (icon : RiskIcon) (f : string → bool)
    (l : list SearchResultItem) :
  (∀ level, bool_decide (riskChipIcon level = icon) = f level) →
  iconCount icon (riskChip <$> l)
  = length (List.filter (λ r, f (risk_level r)) l).
Proof.
  intros Hf. unfold iconCount.
  induction l as [| r l IH]; [reflexivity |].
  cbn [fmap list_fmap List.filter riskChip chipIcon]. rewrite Hf.
  destruct (f (risk_level r)); simpl; by rewrite <- IH.
Qed.

Lemma riskLevelColorMap_keys (s : string) :
  is_Some (riskLevelColorMap !! s) ↔ s ∈ riskLevelKeys.
Proof.
  split; [| apply riskLevelColorMap_listed].
  intros [c Hc]. destruct (decide (s ∈ riskLevelKeys)) as [| Hn]; [done |].
  by rewrite (riskLevelColorMap_unlisted s Hn) in Hc.
Qed.

End ChipFacts.

(** The counters of the summary bar agree with the icons of the detailed
    results table: High counts the rows with the error icon, Medium the rows
    with the warning icon, Low the rows with the check icon, and the rows
    with the info icon are the rest of the total. *)
Theorem counters_match_icons (result : TrafficLightResponse) :
  match TrafficLightResult result with
  | Results card =>
      totalCount (cardSummary card) = length (detailedRows card)
      ∧ highCount (cardSummary card) = iconCount ErrorIcon (detailedRows card)
      ∧ mediumCount (cardSummary card)
        = iconCount WarningAmberIcon (detailedRows card)
      ∧ lowCount (cardSummary card)
        = iconCount CheckCircleIcon (detailedRows card)
      ∧ totalCount (cardSummary card)
        = highCount (cardSummary card) + mediumCount (cardSummary card)
          + lowCount (cardSummary card)
          + iconCount InfoOutlinedIcon (detailedRows card)
  | NoResults _ _ => True
  end.
Proof.
  unfold TrafficLightResult.
  destruct (hasSearchResults result); simpl; [| exact I].
  set (l := searchResultsOf result).
  rewrite (iconCount_filter ErrorIcon (λ s, Js.startsWith s "High"))
    by (intros s; apply riskChipIcon_prefix).
  rewrite (iconCount_filter WarningAmberIcon (λ s, Js.startsWith s "Medium"))
    by (intros s; apply riskChipIcon_prefix).
  rewrite (iconCount_filter CheckCircleIcon (λ s, Js.startsWith s "Low"))
    by (intros s; apply riskChipIcon_prefix).
  rewrite (iconCount_filter InfoOutlinedIcon (λ s, negb (hasSeverityPrefix s)))
    by (intros s; apply riskChipIcon_prefix).
  rewrite length_fmap.
  repeat split; try reflexivity.
  apply counters_partition.
Qed.

(** The colour of a risk chip fixes its icon: a chip in the error colour has
    the error icon, one in the warning colour the warning icon and one in
    the success colour the check icon.  (Not the other way round: the label
    "High-Tax" has the error icon and the default colour.) *)
Theorem chip_colour_fixes_icon (level : string) :
  match riskChipColor level with
  | Named error => riskChipIcon level = ErrorIcon
  | Named warning => riskChipIcon level = WarningAmberIcon
  | Named success => riskChipIcon level = CheckCircleIcon
  | _ => True
  end
  ∧ riskChipColor "High-Tax" = Named default
  ∧ riskChipIcon "High-Tax" = ErrorIcon.
Proof.
  split; [| split; reflexivity].
  destruct (decide (level ∈ riskLevelKeys)) as [Hin | Hout].
  - unfold riskLevelKeys in Hin. rewrite !elem_of_cons, elem_of_nil in Hin.
    repeat (destruct Hin as [-> | Hin]; [by vm_compute |]). done.
  - unfold riskChipColor, Js.get.
    rewrite (riskLevelColorMap_unlisted level Hout).
    by destruct (bool_decide (level ∈ Js.objectPrototypeKeys)).
Qed.

(** The chip receives a colour name exactly when the label is not one of
    the property names of [Object.prototype]; that name is the one of the
    table for a key of the table and the default colour otherwise. *)
Theorem riskChipColor_named (level : string) :
  ((∃ c, riskChipColor level = Named c) ↔ level ∉ Js.objectPrototypeKeys)
  ∧ (∀ c, riskChipColor level = Named c →
          riskLevelColorMap !! level = Some c
          ∨ ((level ∉ riskLevelKeys) ∧ c = default)).
Proof.
  split; [split |].
  - intros [c Hc] Hin. rewrite (riskChipColor_inherited level Hin) in Hc.
    discriminate.
  - intros Hout. destruct (decide (level ∈ riskLevelKeys)) as [Hin | Hn].
    + by apply riskChipColor_listed.
    + exists default. by apply riskChipColor_unlisted.
  - intros c. unfold riskChipColor, Js.get.
    destruct (riskLevelColorMap !! level) as [c' |] eqn:Hl.
    + intros [= <-]. by left.
    + destruct (bool_decide (level ∈ Js.objectPrototypeKeys));
        [discriminate |].
      intros [= <-]. right. split; [| reflexivity].
      intros Hin%riskLevelColorMap_keys. rewrite Hl in Hin.
      by destruct Hin.
Qed.

(** ** More on the summary buttons *)

Section SummaryFacts.

Import SummaryRetry.

Variable result : TrafficLightResponse.

Lemma run_app (s : Ui) (a b : list Event) :
  run result s (a ++ b)
  = ((run result (run result s a).1 b).1,
     (run result s a).2 ++ (run result (run result s a).1 b).2).
Proof.
  revert s. induction a as [| e a IH]; intros s; simpl.
  - by destruct (run result s b).
  - destruct (step result s e) as [s1 sent1]. rewrite IH.
    destruct (run result s1 a) as [s2 sent2]. simpl.
    by rewrite app_assoc.
Qed.

(** A step from a state with the retry button disabled. *)
Lemma step_disabled (s : Ui) (e : Event) :
  3 ≤ retryCount s →
  retryCount (step result s e).1 = retryCount s
  ∧ retryCalls (step result s e).2 = 0.
Proof.
  intros Hge. unfold retryCalls.
  destruct e as [| | loading err data | [|]]; cbn [step].
  - by destruct (getSummaryEnabled result s).
  - unfold retryDisabled.
    destruct (Nat.leb_spec 3 (retryCount s)); [| lia].
    by rewrite andb_false_r.
  - done.
  - done.
  - done.
Qed.

(** A step of a component that shows no results. *)
Lemma step_no_results (s : Ui) (e : Event) :
  hasSearchResults result = false → (step result s e).2 = [].
Proof.
  intros Hno.
  destruct e as [| | loading err data | [|]]; cbn [step]; try done.
  - unfold getSummaryEnabled. by rewrite Hno.
  - unfold retryRendered. by rewrite Hno.
Qed.

(** What one step sends: at most one request, only on a click, with the
    company and all the search results. *)
Lemma step_sent (s : Ui) (e : Event) :
  length (step result s e).2 ≤ Nat.b2n (isClick e)
  ∧ Forall (λ c, call_company_name c = company result
                 ∧ classification_results c = searchResultsOf result)
      (step result s e).2.
Proof.
  destruct e as [| | loading err data | [|]]; cbn [step isClick Nat.b2n].
  - destruct (getSummaryEnabled result s); simpl; split; try lia;
      repeat constructor.
  - destruct (retryRendered result s && negb (retryDisabled s)); simpl;
      split; try lia; repeat constructor.
  - simpl. split; [lia | constructor].
  - simpl. split; [lia | constructor].
  - simpl. split; [lia | constructor].
Qed.

(** One round of the summary button from a state without a request in
    flight: one request from that button, the counter untouched. *)
Lemma summaryRound_run (failed : bool) (s : Ui) :
  hasSearchResults result = true →
  summaryLoading s = false →
  (run result s (summaryRound failed)).2 = [request result GetSummaryButton]
  ∧ summaryLoading (run result s (summaryRound failed)).1 = false
  ∧ retryCount (run result s (summaryRound failed)).1 = retryCount s.
Proof.
  intros Hhas Hload. unfold summaryRound. cbn [run step].
  unfold getSummaryEnabled. rewrite Hhas, Hload.
  unfold hasSearchResults in Hhas. apply Nat.ltb_lt in Hhas.
  rewrite bool_decide_false by lia. by simpl.
Qed.

End SummaryFacts.

(** Once the retry button is disabled it stays disabled, whatever happens
    next, a successful summary included: the counter is never reset, and the
    retry handler sends no further request. *)
Theorem retry_stays_disabled
  (result : TrafficLightResponse) (s : SummaryRetry.Ui)
  (events : list SummaryRetry.Event) :
  SummaryRetry.retryDisabled s = true →
  SummaryRetry.retryDisabled (SummaryRetry.run result s events).1 = true
  ∧ SummaryRetry.retryCount (SummaryRetry.run result s events).1
    = SummaryRetry.retryCount s
  ∧ SummaryRetry.retryCalls (SummaryRetry.run result s events).2 = 0.
Proof.
  unfold SummaryRetry.retryDisabled. intros Hdis%Nat.leb_le.
  assert (SummaryRetry.retryCount (SummaryRetry.run result s events).1
          = SummaryRetry.retryCount s
          ∧ SummaryRetry.retryCalls (SummaryRetry.run result s events).2 = 0)
    as [Hc Hs].
  { revert s Hdis. induction events as [| e rest IH]; intros s Hdis.
    - by simpl.
    - cbn [SummaryRetry.run].
      destruct (step_disabled result s e Hdis) as [Hc1 Hs1].
      destruct (SummaryRetry.step result s e) as [s1 sent1].
      simpl in Hc1, Hs1.
      destruct (IH s1) as [Hc2 Hs2]; [lia |].
      destruct (SummaryRetry.run result s1 rest) as [s2 sent2].
      simpl in *. rewrite retryCalls_app. lia. }
  split; [| by split]. apply Nat.leb_le. lia.
Qed.

(** After three failed retries the summary succeeds on the summary button;
    the retry button is still disabled after a later failure. *)
Lemma retry_stays_disabled_example :
  let result :=
    convertedResult (responseOf "Acme" [resultWith "Low-Legal" (82 # 100)]) in
  let s :=
    {| SummaryRetry.retryCount := 3; SummaryRetry.showSummary := false;
       SummaryRetry.summaryLoading := false;
       SummaryRetry.summaryError := true; SummaryRetry.summary := false |} in
  let events :=
    summaryRound false ++ summaryRound true ++ [SummaryRetry.ClickRetry] in
  SummaryRetry.retryDisabled (SummaryRetry.run result s events).1 = true
  ∧ SummaryRetry.retryCount (SummaryRetry.run result s events).1 = 3
  ∧ SummaryRetry.retryCalls (SummaryRetry.run result s events).2 = 0.
Proof.
  apply (retry_stays_disabled
           (convertedResult
              (responseOf "Acme" [resultWith "Low-Legal" (82 # 100)]))
           {| SummaryRetry.retryCount := 3; SummaryRetry.showSummary := false;
              SummaryRetry.summaryLoading := false;
              SummaryRetry.summaryError := true;
              SummaryRetry.summary := false |}
           (summaryRound false ++ summaryRound true
              ++ [SummaryRetry.ClickRetry])).
  reflexivity.
Defined.

(** A component that shows no results never requests a summary: neither
    button is on screen, whatever the hook reports. *)
Theorem no_results_no_request
  (result : TrafficLightResponse) (s : SummaryRetry.Ui)
  (events : list SummaryRetry.Event) :
  hasSearchResults result = false →
  (SummaryRetry.run result s events).2 = [].
Proof.
  intros Hno. revert s. induction events as [| e rest IH]; intros s.
  - reflexivity.
  - cbn [SummaryRetry.run].
    pose proof (step_no_results result s e Hno) as Hstep.
    destruct (SummaryRetry.step result s e) as [s1 sent1]. simpl in Hstep.
    specialize (IH s1).
    destruct (SummaryRetry.run result s1 rest) as [s2 sent2].
    simpl in *. by rewrite Hstep, IH.
Qed.

Lemma no_results_no_request_example :
  (SummaryRetry.run
     (convertedResult (responseOf "Acme" []))
     SummaryRetry.initial
     [ SummaryRetry.ClickGetSummary;
       SummaryRetry.HookState false true false;
       SummaryRetry.ClickRetry ]).2 = [].
Proof.
  apply (no_results_no_request
           (convertedResult (responseOf "Acme" []))
           SummaryRetry.initial
           [ SummaryRetry.ClickGetSummary;
             SummaryRetry.HookState false true false;
             SummaryRetry.ClickRetry ]).
  reflexivity.
Defined.

(** Every summary request, from either button, carries the company of the
    result and all of its search results, and there are no more requests
    than clicks: a request is only ever sent by a click. *)
Theorem requests_by_clicks_with_all_results
  (result : TrafficLightResponse) (s : SummaryRetry.Ui)
  (events : list SummaryRetry.Event) :
  let sent := (SummaryRetry.run result s events).2 in
  length sent ≤ length (List.filter isClick events)
  ∧ Forall (λ c, SummaryRetry.call_company_name c = company result
                 ∧ SummaryRetry.classification_results c
                   = searchResultsOf result) sent.
Proof.
  cbn zeta. revert s. induction events as [| e rest IH]; intros s.
  - simpl. split; [lia | constructor].
  - cbn [SummaryRetry.run].
    destruct (step_sent result s e) as [Hlen Hall].
    destruct (SummaryRetry.step result s e) as [s1 sent1].
    simpl in Hlen, Hall.
    destruct (IH s1) as [Hlen' Hall'].
    destruct (SummaryRetry.run result s1 rest) as [s2 sent2].
    simpl in *. split.
    + rewrite length_app. destruct (isClick e); simpl in *; lia.
    + by apply Forall_app.
Qed.

(** Only the retries are capped.  The summary button requests the summary
    once per round of use, any number of times, without touching the retry
    counter, whether the rounds fail or succeed. *)
Theorem summary_button_unbounded
  (result : TrafficLightResponse) (failed : bool) (n : nat) :
  hasSearchResults result = true →
  let rounds := concat (replicate n (summaryRound failed)) in
  let final := SummaryRetry.run result SummaryRetry.initial rounds in
  length final.2 = n
  ∧ getSummaryCalls final.2 = n
  ∧ SummaryRetry.retryCount final.1 = 0.
Proof.
  intros Hhas. cbn zeta.
  assert (∀ s, SummaryRetry.summaryLoading s = false →
               let final :=
                 SummaryRetry.run
                   result s (concat (replicate n (summaryRound failed))) in
               length final.2 = n
               ∧ getSummaryCalls final.2 = n
               ∧ SummaryRetry.retryCount final.1 = SummaryRetry.retryCount s)
    as Hgen.
  { induction n as [| n IH]; intros s Hload; cbn zeta.
    - by simpl.
    - cbn [replicate concat]. rewrite run_app.
      destruct (summaryRound_run result failed s Hhas Hload)
        as (Hsent & Hload' & Hcount).
      destruct (IH _ Hload') as (Hlen & Hget & Hretry).
      cbn [fst snd]. rewrite Hsent, Hretry, Hcount.
      unfold getSummaryCalls in *.
      rewrite List.filter_app, !length_app, Hlen, Hget. done. }
  apply (Hgen SummaryRetry.initial). reflexivity.
Qed.

Lemma summary_button_unbounded_example :
  let result :=
    convertedResult (responseOf "Acme" [resultWith "Low-Legal" (82 # 100)]) in
  let final :=
    SummaryRetry.run result SummaryRetry.initial
      (concat (replicate 5 (summaryRound true))) in
  length final.2 = 5
  ∧ getSummaryCalls final.2 = 5
  ∧ SummaryRetry.retryCount final.1 = 0.
Proof.
  apply (summary_button_unbounded
           (convertedResult
              (responseOf "Acme" [resultWith "Low-Legal" (82 # 100)]))
           true 5).
  reflexivity.
Defined.

(** ** The parameter tables *)

Section ParameterFacts.

Lemma dataSourcesMap_unlisted (param : string) :
  param ∉ dataSourceKeys → dataSourcesMap !! param = None.
Proof.
  intros Hp. unfold dataSourcesMap.
  repeat (rewrite lookup_insert_ne;
          [| intros <-; apply Hp; unfold dataSourceKeys; set_solver]).
  apply lookup_empty.
Qed.

Lemma dataSourceField_unlisted (field : DataSource → string)
    (fallback param : string) :
  param ∉ dataSourceKeys → dataSourceField field fallback param = fallback.
Proof.
  intros Hp. unfold dataSourceField, Js.get.
  rewrite (dataSourcesMap_unlisted param Hp).
  by destruct (bool_decide (param ∈ Js.objectPrototypeKeys)).
Qed.

End ParameterFacts.

(** The "Data Source" and "Last Updated" cells of a parameter row show a
    dash exactly for the parameters other than turnover, shareholding,
    bankruptcy and legal; each of these four also has a display name, and
    the blocks of a converted result are these four, so its table shows no
    dash and no missing name. *)
Theorem data_source_cells (param : string) (response : SearchResponse) :
  (dataSourceCell param = "—" ↔ param ∉ dataSourceKeys)
  ∧ (lastUpdatedCell param = "—" ↔ param ∉ dataSourceKeys)
  ∧ (param ∈ dataSourceKeys → ∃ name, Js.get parameterMap param = Js.Own name)
  ∧ (blocks (convertedResult response)).*1 = dataSourceKeys.
Proof.
  assert (param ∈ dataSourceKeys →
          dataSourceCell param ≠ "—" ∧ lastUpdatedCell param ≠ "—"
          ∧ ∃ name, Js.get parameterMap param = Js.Own name) as Hin.
  { unfold dataSourceKeys. rewrite !elem_of_cons, elem_of_nil.
    intros H.
    repeat (destruct H as [-> | H];
            [by repeat split; [vm_compute; discriminate ..| eexists] |]).
    done. }
  split; [| split; [| split]].
  - split.
    + intros Hd Hp. by destruct (Hin Hp) as [Hne _].
    + apply dataSourceField_unlisted.
  - split.
    + intros Hd Hp. by destruct (Hin Hp) as (_ & Hne & _).
    + apply dataSourceField_unlisted.
  - intros Hp. by destruct (Hin Hp) as (_ & _ & Hname).
  - reflexivity.
Qed.

(** ** The backend tests of the integration page *)

Section TestPageFacts.

Import TestPage.

Lemma ok_range (status : nat) : ok status = true ↔ 200 ≤ status ≤ 299.
Proof.
  unfold ok. rewrite andb_true_iff, !Nat.leb_le. reflexivity.
Qed.

Lemma take_3_prefix {A} (l : list A) :
  l = take 3 l ++ drop 3 l
  ∧ length (take 3 l) ≤ 3
  ∧ (length (take 3 l) < 3 → drop 3 l = []).
Proof.
  split; [by rewrite take_drop |]. rewrite length_take.
  split; [lia |]. intros Hlt. apply drop_ge. lia.
Qed.

End TestPageFacts.

(** The health check passes exactly when the backend answers with a status
    from 200 to 299 and a JSON body other than [null] whose status, message
    and version have a text.  Every failure shows the hint naming the
    backend URL, with the message of the error caught: the one of [fetch],
    of the JSON parser (whatever the status) or of the read of a [null]
    body; for a status from 200 to 299 the one of the field that has no
    text; for another status "HTTP <status>: <detail>", with "Unknown error"
    for a missing or falsy detail, unless the detail has no text. *)
Theorem testBackendHealth_passes (o : TestPage.Outcome TestPage.HealthData) :
  ((∃ shown, TestPage.testBackendHealth o = TestPage.Passed shown)
   ↔ ∃ status data st msg ver,
       o = TestPage.Responded status (TestPage.Body data)
       ∧ 200 ≤ status ≤ 299
       ∧ TestPage.toText (TestPage.health_status data) = TestPage.Done st
       ∧ TestPage.toText (TestPage.health_message data) = TestPage.Done msg
       ∧ TestPage.toText (TestPage.health_version data) = TestPage.Done ver)
  ∧ ∀ message hint,
      TestPage.testBackendHealth o = TestPage.Failed message hint →
      hint = TestPage.healthHint
      ∧ match o with
        | TestPage.FetchRejected thrown
        | TestPage.JsonRejected _ thrown
        | TestPage.Responded _ (TestPage.NullBody thrown) => message = thrown
        | TestPage.Responded status (TestPage.Body data) =>
            if TestPage.ok status then
              TestPage.toText (TestPage.health_status data)
                = TestPage.Thrown message
              ∨ TestPage.toText (TestPage.health_message data)
                = TestPage.Thrown message
              ∨ TestPage.toText (TestPage.health_version data)
                = TestPage.Thrown message
            else
              match TestPage.orText (TestPage.health_detail data)
                      "Unknown error" with
              | TestPage.Done d =>
                  message = "HTTP " +:+ pretty status +:+ ": " +:+ d
              | TestPage.Thrown typeError => message = typeError
              end
        end.
Proof.
  unfold TestPage.testBackendHealth, TestPage.healthAttempt.
  split; [split |].
  - intros [shown Hs].
    destruct o as [m | st m | st [te | data]]; simpl in Hs; try discriminate.
    destruct (TestPage.ok st) eqn:Hok.
    + apply ok_range in Hok.
      destruct (TestPage.toText (TestPage.health_status data)) as [a |]
        eqn:Ha; [| discriminate].
      destruct (TestPage.toText (TestPage.health_message data)) as [b |]
        eqn:Hb; [| discriminate].
      destruct (TestPage.toText (TestPage.health_version data)) as [c |]
        eqn:Hc; [| discriminate].
      by exists st, data, a, b, c.
    + unfold TestPage.throwHttpError in Hs.
      destruct (TestPage.orText (TestPage.health_detail data) "Unknown error");
        discriminate.
  - intros (st & data & a & b & c & -> & Hr & Ha & Hb & Hc). simpl.
    apply ok_range in Hr. rewrite Hr, Ha, Hb, Hc. simpl. by eexists.
  - intros message hint Hf.
    destruct o as [m | st m | st [te | data]]; simpl in Hf.
    + by injection Hf as <- <-.
    + by injection Hf as <- <-.
    + by injection Hf as <- <-.
    + destruct (TestPage.ok st).
      * destruct (TestPage.toText (TestPage.health_status data)) as [a |];
          [| injection Hf as <- <-; auto].
        destruct (TestPage.toText (TestPage.health_message data)) as [b |];
          [| injection Hf as <- <-; auto].
        destruct (TestPage.toText (TestPage.health_version data)) as [c |];
          [discriminate | injection Hf as <- <-; auto].
      * unfold TestPage.throwHttpError in Hf.
        destruct (TestPage.orText (TestPage.health_detail data)
                    "Unknown error");
          simpl in Hf; by injection Hf as <- <-.
Qed.

(** The search test passes exactly when the backend answers with a status
    from 200 to 299 and a JSON body other than [null] whose company name,
    total and time have a text and whose results, when present, are an array
    or a string.  The sample it then shows is the first elements of the
    results, three at most and all of them when there are fewer, and is
    missing only when the body has no results. *)
Theorem testStreamlinedSearch_passes (J : Type)
  (o : TestPage.Outcome (TestPage.SearchData J)) :
  ((∃ shown, TestPage.testStreamlinedSearch o = TestPage.Passed shown)
   ↔ ∃ status data name total time,
       o = TestPage.Responded status (TestPage.Body data)
       ∧ 200 ≤ status ≤ 299
       ∧ TestPage.toText (TestPage.search_company_name data)
         = TestPage.Done name
       ∧ TestPage.orText (TestPage.search_total_results data) "0"
         = TestPage.Done total
       ∧ TestPage.orText (TestPage.search_total_time_seconds data) "N/A"
         = TestPage.Done time
       ∧ ∀ typeError,
           TestPage.search_results data ≠ TestPage.NotSliceable typeError)
  ∧ ∀ shown,
      TestPage.testStreamlinedSearch o = TestPage.Passed shown →
      ∃ status data,
        o = TestPage.Responded status (TestPage.Body data)
        ∧ match TestPage.search_results data with
          | TestPage.NoResultsField =>
              TestPage.shownSample shown = TestPage.SampleUndefined
          | TestPage.ResultsArray elements =>
              ∃ first rest,
                TestPage.shownSample shown = TestPage.SampleArray first
                ∧ elements = first ++ rest
                ∧ length first ≤ 3
                ∧ (length first < 3 → rest = [])
          | TestPage.ResultsString units =>
              ∃ first rest,
                TestPage.shownSample shown = TestPage.SampleString first
                ∧ units = first ++ rest
                ∧ length first ≤ 3
                ∧ (length first < 3 → rest = [])
          | TestPage.NotSliceable _ => False
          end.
Proof.
  unfold TestPage.testStreamlinedSearch, TestPage.searchAttempt.
  split; [split |].
  - intros [shown Hs].
    destruct o as [m | st m | st [te | data]]; simpl in Hs; try discriminate.
    destruct (TestPage.ok st) eqn:Hok.
    + apply ok_range in Hok.
      destruct (TestPage.toText (TestPage.search_company_name data))
        as [a |] eqn:Ha; [| discriminate].
      destruct (TestPage.orText (TestPage.search_total_results data) "0")
        as [b |] eqn:Hb; [| discriminate].
      destruct (TestPage.orText (TestPage.search_total_time_seconds data)
                  "N/A") as [c |] eqn:Hc; [| discriminate].
      exists st, data, a, b, c. repeat split; try done; try lia.
      intros te Hte. rewrite Hte in Hs. discriminate.
    + unfold TestPage.throwHttpError in Hs.
      destruct (TestPage.orText (TestPage.search_detail data) "Unknown error");
        discriminate.
  - intros (st & data & a & b & c & -> & Hr & Ha & Hb & Hc & Hres). simpl.
    apply ok_range in Hr. rewrite Hr, Ha, Hb, Hc. simpl.
    destruct (TestPage.search_results data) as [| l | u | te];
      simpl; try by eexists.
    by destruct (Hres te).
  - intros shown Hs.
    destruct o as [m | st m | st [te | data]]; simpl in Hs; try discriminate.
    exists st, data. split; [reflexivity |].
    destruct (TestPage.ok st).
    + destruct (TestPage.toText (TestPage.search_company_name data))
        as [a |]; [| discriminate].
      destruct (TestPage.orText (TestPage.search_total_results data) "0")
        as [b |]; [| discriminate].
      destruct (TestPage.orText (TestPage.search_total_time_seconds data)
                  "N/A") as [c |]; [| discriminate].
      destruct (TestPage.search_results data) as [| l | u | te];
        simpl in Hs; try discriminate; injection Hs as <-; simpl.
      * reflexivity.
      * exists (take 3 l), (drop 3 l).
        split; [reflexivity | apply take_3_prefix].
      * exists (take 3 u), (drop 3 u).
        split; [reflexivity | apply take_3_prefix].
    + unfold TestPage.throwHttpError in Hs.
      destruct (TestPage.orText (TestPage.search_detail data) "Unknown error");
        discriminate.
Qed.

(** ** Further facts on the tables and the buttons *)

(** A result labelled "Medium-<Category>" is shown in the warning colour
    for every category but Other, for which the table has no Medium entry
    and the chip takes the default colour; its icon is the warning icon for
    every category. *)
Theorem medium_buckets (c : Category) :
  riskChipColor (riskLabel Medium c)
    = Named (match c with Other => default | _ => warning end)
  ∧ riskChipIcon (riskLabel Medium c) = WarningAmberIcon.
Proof. destruct c; split; reflexivity. Qed.

(** The summary button, when it is on screen, is disabled exactly while a
    request is in flight: its second condition, an empty list of results,
    never holds where the button is rendered. *)
Theorem getSummaryEnabled_loading
  (result : TrafficLightResponse) (s : SummaryRetry.Ui) :
  SummaryRetry.getSummaryEnabled result s
  = hasSearchResults result && negb (SummaryRetry.summaryLoading s).
Proof.
  unfold SummaryRetry.getSummaryEnabled, hasSearchResults.
  destruct (Nat.ltb_spec 0 (length (searchResultsOf result))) as [Hpos | Hz];
    [| reflexivity].
  rewrite (bool_decide_false (length (searchResultsOf result) = 0)) by lia.
  by rewrite orb_false_r.
Qed.
